(** * core/models.py: events, event administrators and tickets

    A shallow embedding of the three model classes of [core/models.py]
    ([Event], [EventAdmin], [Ticket]), of the two aggregate methods of
    [Event] and of the constructors the file overrides, followed by the
    properties of the data model.

    Conventions.
    - A [PositiveIntegerField] holds a non-negative integer: its values are
      in [N]. Python arithmetic on them is integer arithmetic, in [Z].
    - A [DecimalField] with two decimal places is counted in hundredths, a
      [DateTimeField] in seconds; both are in [Z].
    - A foreign key is the primary key of the row it references.
    - An attribute assignment [self.x = v] stores [v] in the instance, unless
      [x] is the name of a reverse accessor: [tickets] is the one that
      [Ticket.event] puts on [Event] ([related_name='tickets']), it gives the
      tickets of the instance when read and raises [TypeError] when assigned.
    - A method runs in a state and error monad over the instance it is called
      on and the stored rows; a raised exception is an outcome. *)

From Stdlib Require Import ZArith NArith List String Bool Lia.
From Stdlib Require Import Ascii DecimalString DecimalZ.
Import ListNotations.
Local Open Scope Z_scope.

(** ** Python values, exceptions and outcomes *)

(** The values a constructor call can carry in [*args] and [**kwargs]. *)
#[local] Set Warnings "-register-all".
Inductive pyval : Type :=
| PyNone
| PyInt (z : Z)
| PyStr (s : string)
| PyTuple (items : list pyval)
| PyDict (entries : list (string * pyval)).

(** The constraint a store operation violated. *)
Inductive constraint : Type :=
| UniqueViolation
| ForeignKeyViolation
| CheckViolation.

Inductive exn : Type :=
| AttributeError
| TypeError
| IndexError
| IntegrityError (c : constraint).

Inductive outcome (A : Type) : Type :=
| Return (a : A)
| Raise (e : exn).

Arguments Return {A} a.
Arguments Raise {A} e.

(** Computations over a state [S] that return an [A] or raise. *)
Definition M (S A : Type) : Type := S -> outcome A * S.

Definition ret {S A : Type} (a : A) : M S A := fun s => (Return a, s).

Definition raise {S A : Type} (e : exn) : M S A := fun s => (Raise e, s).

Definition bind {S A B : Type} (m : M S A) (k : A -> M S B) : M S B :=
  fun s =>
    match m s with
    | (Return a, s') => k a s'
    | (Raise e, s') => (Raise e, s')
    end.

Definition gets {S A : Type} (f : S -> A) : M S A := fun s => (Return (f s), s).

Definition modify {S : Type} (f : S -> S) : M S unit := fun s => (Return tt, f s).

Declare Scope py_scope.
Delimit Scope py_scope with py.
Notation "x <- m ;; k" := (bind m (fun x => k))
  (at level 100, m at next level, right associativity) : py_scope.
Notation "m ;;; k" := (bind m (fun _ => k))
  (at level 100, right associativity) : py_scope.

(** ** The declared fields of the three models *)

(** [Ticket.STATUS_CHOICES]. *)
Inductive Status : Type :=
| STATUS_PENDING
| STATUS_PAID
| STATUS_CANCELLED.

Module Columns.

Module Event.
Record t : Type := mk {
  title : string;
  description : string;
  location : string;
  start_datetime : Z;
  end_datetime : option Z;
  capacity : option N;
  price : Z;
  created_at : Z;
  updated_at : Z
}.
End Event.

Module EventAdmin.
Record t : Type := mk {
  user : Z;
  event : Z;
  assigned_at : Z
}.
End EventAdmin.

Module Ticket.
Record t : Type := mk {
  event : Z;
  buyer : Z;
  quantity : N;
  total : Z;
  status : Status;
  purchased_at : Z
}.
End Ticket.

End Columns.

(** ** The stored rows *)

(** A stored row: the primary key the store gave it, and its columns. *)
Record row (C : Type) : Type := Row { pk : Z; data : C }.

Arguments Row {C} pk data.
Arguments pk {C} r.
Arguments data {C} r.

(** The tables of the three models and the keys of the users of
    [settings.AUTH_USER_MODEL], which the foreign keys reference. *)
Record DB : Type := mkDB {
  users : list Z;
  events : list (row Columns.Event.t);
  admins : list (row Columns.EventAdmin.t);
  tickets : list (row Columns.Ticket.t)
}.

(** The key of the next row of a table: one more than the largest in use. *)
Definition fresh_pk {C : Type} (table : list (row C)) : Z :=
  1 + fold_right (fun r acc => Z.max (pk r) acc) 0 table.

Definition mem_pk (k : Z) (keys : list Z) : bool := existsb (Z.eqb k) keys.

(** ** Related managers and aggregation *)

(** The reverse side of [Ticket.event] ([related_name='tickets']), bound to
    the key of an event: it stands for the tickets whose [event] is that key. *)
Inductive manager : Type :=
| RelatedManager (event_pk : Z).

Definition get_queryset (m : manager) (d : DB) : list (row Columns.Ticket.t) :=
  match m with
  | RelatedManager k =>
      filter (fun r => Columns.Ticket.event (data r) =? k) (tickets d)
  end.

(** [Sum(field)]: the sum of a column over the rows of a queryset; the store
    answers NULL, which Python reads as [None], when there is no row. *)
Definition Sum (field : Columns.Ticket.t -> N)
    (qs : list (row Columns.Ticket.t)) : option Z :=
  match qs with
  | [] => None
  | _ :: _ => Some (fold_right (fun r acc => Z.of_N (field (data r)) + acc) 0 qs)
  end.

(** [d.get(key)]: the value under [key], [None] when the key is absent. *)
Fixpoint dict_get (d : list (string * option Z)) (key : string) : option Z :=
  match d with
  | [] => None
  | (k, v) :: rest => if String.eqb k key then v else dict_get rest key
  end.

(** [x or y] on an integer or [None]: [y] when [x] is [None] or [0]. *)
Definition py_or (x : option Z) (y : Z) : Z :=
  match x with
  | None => y
  | Some v => if v =? 0 then y else v
  end.

(** [int(x)] on an integer. *)
Definition int (x : Z) : Z := x.

(** The base class of the three models: its constructor takes positional and
    keyword arguments and initialises the instance, or raises. *)
Class Model (T : Type) : Type := {
  Model__init__ : list pyval -> list (string * pyval) -> outcome T
}.

(** ** The Event class *)

Module Event.

(** An instance: the key the store gave it ([None] before it is saved), its
    fields, and what reading [self.tickets] gives. On an instance of [Event]
    that is the reverse manager of its key; [None] is what an object that
    stands in for [self] without being an [Event] may have there. *)
Record t : Type := mk {
  id : option Z;
  cols : Columns.Event.t;
  tickets : option manager
}.

Definition capacity (self : t) : option N := Columns.Event.capacity (cols self).

(** An instance of key [k]: its [id] is [k], and [self.tickets] is the reverse
    manager of [k]. *)
Definition of_key (k : Z) (self : t) : Prop :=
  id self = Some k /\ tickets self = Some (RelatedManager k).

Definition set_id (v : option Z) (self : t) : t :=
  {| id := v; cols := cols self; tickets := tickets self |}.

(** [self.tickets = v]: the reverse accessor refuses the assignment. *)
Definition assign_tickets (v : option manager) (self : t) : outcome t :=
  Raise TypeError.

(** [Event.__init__]: the base constructor is called with the tuple [args]
    and the dictionary [kwargs] as its two positional arguments, then [None]
    is assigned to [self.tickets] and to [self.id]. *)
Definition __init__ `{Model t} (args : list pyval)
    (kwargs : list (string * pyval)) : outcome t :=
  match Model__init__ [PyTuple args; PyDict kwargs] [] with
  | Return self =>
      match assign_tickets None self with
      | Return self' => Return (set_id None self')
      | Raise e => Raise e
      end
  | Raise e => Raise e
  end.

(** What a method of an instance runs on: the instance and the stored rows. *)
Record World : Type := mkWorld { self : t; db : DB }.

(** [self.<attribute>]. *)
Definition getattr {A : Type} (attribute : t -> A) : M World A :=
  gets (fun w => attribute (self w)).

(** [target.aggregate(alias=expr)]: [None] has no attribute [aggregate]; a
    manager evaluates [expr] on its queryset and answers a dictionary with
    the one key [alias]. *)
Definition aggregate (target : option manager) (alias : string)
    (expr : list (row Columns.Ticket.t) -> option Z)
    : M World (list (string * option Z)) :=
  match target with
  | None => raise AttributeError
  | Some m => gets (fun w => [(alias, expr (get_queryset m (db w)))])
  end.

Definition tickets_sold : M World Z :=
  (self_tickets <- getattr tickets ;;
   agg <- aggregate self_tickets "total" (Sum Columns.Ticket.quantity) ;;
   let total := py_or (dict_get agg "total") 0 in
   ret (int total))%py.

(** The answer is [None] (no limit) or a number of seats. *)
Definition seats_available : M World (option Z) :=
  (self_capacity <- getattr capacity ;;
   match self_capacity with
   | None => ret None
   | Some c =>
       self_tickets <- getattr tickets ;;
       agg <- aggregate self_tickets "total" (Sum Columns.Ticket.quantity) ;;
       let sold := py_or (dict_get agg "total") 0 in
       let available := Z.of_N c - int sold in
       ret (Some (Z.max available 0))
   end)%py.

End Event.

(** ** The Ticket class *)

Module Ticket.

Record t : Type := mk {
  id : option Z;
  cols : Columns.Ticket.t
}.

Definition set_id (v : option Z) (self : t) : t :=
  {| id := v; cols := cols self |}.

(** [Ticket.__init__]: the base constructor is called as in
    [Event.__init__], then [id] is set to [None]. *)
Definition __init__ `{Model t} (args : list pyval)
    (kwargs : list (string * pyval)) : outcome t :=
  match Model__init__ [PyTuple args; PyDict kwargs] [] with
  | Return self => Return (set_id None self)
  | Raise e => Raise e
  end.

End Ticket.

(** ** The store: what the declarations of the models make it do

    [EventAdmin.Meta.unique_together], the [on_delete=models.CASCADE] of the
    four foreign keys, the [PositiveIntegerField] of [Ticket.quantity] and the
    defaults of [Ticket.quantity] and [Ticket.status] are declarations; the
    operations below are what the mapper does with them on the stored rows.
    The mapper makes an instance of the class for every row it creates and
    for every row it loads, so what goes through [Event] runs
    [Event.__init__]. *)

Module Objects.

Definition set_users (v : list Z) (d : DB) : DB :=
  {| users := v; events := events d; admins := admins d; tickets := tickets d |}.

Definition set_events (v : list (row Columns.Event.t)) (d : DB) : DB :=
  {| users := users d; events := v; admins := admins d; tickets := tickets d |}.

Definition set_admins (v : list (row Columns.EventAdmin.t)) (d : DB) : DB :=
  {| users := users d; events := events d; admins := v; tickets := tickets d |}.

Definition set_tickets (v : list (row Columns.Ticket.t)) (d : DB) : DB :=
  {| users := users d; events := events d; admins := admins d; tickets := v |}.

Definition empty : DB :=
  {| users := []; events := []; admins := []; tickets := [] |}.

(** Whether a row of the table already has the pair [(user, event)]. *)
Definition pair_taken (user event : Z)
    (table : list (row Columns.EventAdmin.t)) : bool :=
  existsb (fun r => (Columns.EventAdmin.user (data r) =? user)
                    && (Columns.EventAdmin.event (data r) =? event)) table.

Definition has_user (k : Z) (d : DB) : bool := mem_pk k (users d).

Definition has_event (k : Z) (d : DB) : bool := mem_pk k (map pk (events d)).

(** A new user of the authentication subsystem, under a key not in use. *)
Definition User_create (k : Z) : M DB unit :=
  (taken <- gets (has_user k) ;;
   if taken then raise (IntegrityError UniqueViolation)
   else modify (fun d => set_users (users d ++ [k]) d))%py.

(** [Event.objects.create(...)], and [Event(...)] followed by [save()]: the
    instance is made first, [Event.__init__] raises at its assignment to
    [self.tickets], and no row is stored. *)
Definition Event_create (c : Columns.Event.t) : M DB (row Columns.Event.t) :=
  raise TypeError.

(** An event row written to the table without the [Event] class, by the
    database itself (an SQL [INSERT], a restored dump): the way a store comes
    to hold events. *)
Definition Event_insert (c : Columns.Event.t) : M DB (row Columns.Event.t) :=
  (k <- gets (fun d => fresh_pk (events d)) ;;
   let r := Row k c in
   modify (fun d => set_events (events d ++ [r]) d) ;;;
   ret r)%py.

(** A new [EventAdmin] row for [(user, event)], assigned at [now]:
    [unique_together = ('user', 'event')] refuses a pair already stored. *)
Definition EventAdmin_create (user event now : Z)
    : M DB (row Columns.EventAdmin.t) :=
  (taken <- gets (fun d => pair_taken user event (admins d)) ;;
   if taken then raise (IntegrityError UniqueViolation)
   else
     known <- gets (fun d => has_user user d && has_event event d) ;;
     if negb known then raise (IntegrityError ForeignKeyViolation)
     else
       k <- gets (fun d => fresh_pk (admins d)) ;;
       let r := Row k (Columns.EventAdmin.mk user event now) in
       modify (fun d => set_admins (admins d ++ [r]) d) ;;;
       ret r)%py.

(** A new [Ticket] row bought at [now]. [quantity] and [status] may be left
    out: their defaults are [1] and [STATUS_PENDING]. A
    [PositiveIntegerField] refuses a negative number and accepts [0]. *)
Definition Ticket_create (event buyer : Z) (quantity : option Z) (total : Z)
    (status : option Status) (now : Z) : M DB (row Columns.Ticket.t) :=
  (let q := match quantity with Some q => q | None => 1 end in
   let st := match status with Some st => st | None => STATUS_PENDING end in
   if q <? 0 then raise (IntegrityError CheckViolation)
   else
     known <- gets (fun d => has_event event d && has_user buyer d) ;;
     if negb known then raise (IntegrityError ForeignKeyViolation)
     else
       k <- gets (fun d => fresh_pk (tickets d)) ;;
       let r := Row k (Columns.Ticket.mk event buyer (Z.to_N q) total st now) in
       modify (fun d => set_tickets (tickets d ++ [r]) d) ;;;
       ret r)%py.

(** Deleting the event of key [k]. [Ticket.event] and [EventAdmin.event]
    are [on_delete=models.CASCADE], so a stored event is loaded as an
    instance before any row is removed; loading runs [Event.__init__], which
    raises, and nothing is removed. With no event of key [k] nothing is
    loaded and nothing removed. *)
Definition Event_delete (k : Z) : M DB unit :=
  (stored <- gets (has_event k) ;;
   if stored then raise TypeError else ret tt)%py.

(** Deleting the user of key [k]: the [EventAdmin] rows whose [user] is [k]
    and the [Ticket] rows whose [buyer] is [k] go with it. *)
Definition User_delete (k : Z) : M DB unit :=
  modify (fun d =>
    {| users := filter (fun u => negb (u =? k)) (users d);
       events := events d;
       admins := filter (fun r => negb (Columns.EventAdmin.user (data r) =? k))
                   (admins d);
       tickets := filter (fun r => negb (Columns.Ticket.buyer (data r) =? k))
                    (tickets d) |}).

(** The operations that act on the store. *)
Inductive op : Type :=
| OpUserCreate (k : Z)
| OpUserDelete (k : Z)
| OpEventCreate (c : Columns.Event.t)
| OpEventDelete (k : Z)
| OpEventAdminCreate (user event now : Z)
| OpTicketCreate (event buyer : Z) (quantity : option Z) (total : Z)
    (status : option Status) (now : Z)
| OpEventInsert (c : Columns.Event.t).

(** The store after an operation; a refused operation leaves it as it was. *)
Definition exec (o : op) (d : DB) : DB :=
  match o with
  | OpUserCreate k => snd (User_create k d)
  | OpUserDelete k => snd (User_delete k d)
  | OpEventCreate c => snd (Event_create c d)
  | OpEventDelete k => snd (Event_delete k d)
  | OpEventAdminCreate u e now => snd (EventAdmin_create u e now d)
  | OpTicketCreate e b q tot st now => snd (Ticket_create e b q tot st now d)
  | OpEventInsert c => snd (Event_insert c d)
  end.

(** The stores a sequence of operations reaches from the empty one. *)
Inductive reachable : DB -> Prop :=
| reachable_empty : reachable empty
| reachable_exec : forall o d, reachable d -> reachable (exec o d).

(** The [(user, event)] pairs of the [EventAdmin] rows, in table order. *)
Definition admin_pairs (d : DB) : list (Z * Z) :=
  map (fun r => (Columns.EventAdmin.user (data r),
                 Columns.EventAdmin.event (data r))) (admins d).

End Objects.

(** ** Labels and addresses *)

(** [str(x)] on an integer: its decimal digits, after [-] when it is
    negative. *)
Definition str_int (z : Z) : string := NilZero.string_of_int (Z.to_int z).

(** [str(x)], and [{x}] in an f-string, on a key: an integer or [None]. *)
Definition str_key (k : option Z) : string :=
  match k with
  | None => "None"
  | Some z => str_int z
  end.

(** An instance of [settings.AUTH_USER_MODEL], as far as the labels read it:
    its [username] attribute, when it has one, and what [str] gives for it. *)
Record User : Type := mkUser {
  username : option string;
  User__str__ : string
}.

(** [getattr(o, name, default)], from what [o] has under [name]. *)
Definition getattr_default {A : Type} (attribute : option A) (default : A) : A :=
  match attribute with
  | Some v => v
  | None => default
  end.

(** The URL configuration of the project: [reverse(viewname, args=...)]
    answers the address of a view, or raises. *)
Class UrlConf : Type := {
  reverse : string -> list string -> outcome string
}.

(** [Event.__str__]. *)
Definition Event__str__ (self : Event.t) : string :=
  Columns.Event.title (Event.cols self).

(** [Event.get_absolute_url]. *)
Definition Event_get_absolute_url `{UrlConf} (self : Event.t) : outcome string :=
  reverse "event_detail" [str_key (Event.id self)].

(** ** The EventAdmin class *)

Module EventAdmin.

(** An instance, with the user and the event its foreign keys resolve to. *)
Record t : Type := mk {
  id : option Z;
  user : User;
  event : Event.t;
  assigned_at : Z
}.

Definition __str__ (self : t) : string :=
  let username :=
    getattr_default (username (user self)) (User__str__ (user self)) in
  (username ++ " — admin de " ++ Columns.Event.title (Event.cols (event self)))%string.

End EventAdmin.

(** [Ticket.__str__], given the user and the event that [self.buyer] and
    [self.event] resolve to. *)
Definition Ticket__str__ (self : Ticket.t) (self_buyer : User)
    (self_event : Event.t) : string :=
  let buyer_name :=
    getattr_default (username self_buyer) (User__str__ self_buyer) in
  ("Ticket #" ++ str_key (Ticket.id self) ++ " | " ++ buyer_name ++ " → "
   ++ Columns.Event.title (Event.cols self_event))%string.

(** ** What the properties are stated with *)

(** The sum of [quantity] over the stored tickets whose [event] is [k],
    whatever their [status]. *)
Definition quantity_sum (k : Z) (d : DB) : Z :=
  fold_right Z.add 0
    (map (fun r => Z.of_N (Columns.Ticket.quantity (data r)))
       (filter (fun r => Columns.Ticket.event (data r) =? k) (tickets d))).

(** The key a manager is bound to. *)
Definition bound_to (m : manager) : Z :=
  match m with RelatedManager k => k end.

(** Whether a string has no space in it. *)
Fixpoint no_space (s : string) : bool :=
  match s with
  | EmptyString => true
  | String c rest => negb (Ascii.eqb c " ") && no_space rest
  end.

(** The columns of a ticket under another status. *)
Definition with_status (st : Status) (c : Columns.Ticket.t) : Columns.Ticket.t :=
  {| Columns.Ticket.event := Columns.Ticket.event c;
     Columns.Ticket.buyer := Columns.Ticket.buyer c;
     Columns.Ticket.quantity := Columns.Ticket.quantity c;
     Columns.Ticket.total := Columns.Ticket.total c;
     Columns.Ticket.status := st;
     Columns.Ticket.purchased_at := Columns.Ticket.purchased_at c |}.

(** The store after every ticket was given the status [f] chooses for it:
    [status] is a plain field, and any status may replace any other. *)
Definition restatus (f : row Columns.Ticket.t -> Status) (d : DB) : DB :=
  Objects.set_tickets
    (map (fun r => Row (pk r) (with_status (f r) (data r))) (tickets d)) d.

(** Every foreign key of a stored row is the key of a stored event or of a
    known user. *)
Definition references_kept (d : DB) : Prop :=
  (forall r, In r (tickets d) ->
     Objects.has_event (Columns.Ticket.event (data r)) d = true
     /\ Objects.has_user (Columns.Ticket.buyer (data r)) d = true)
  /\ (forall r, In r (admins d) ->
        Objects.has_user (Columns.EventAdmin.user (data r)) d = true
        /\ Objects.has_event (Columns.EventAdmin.event (data r)) d = true).

(** ** Data to run the definitions on *)

Definition plain_event (capacity : option N) : Columns.Event.t :=
  {| Columns.Event.title := "Final";
     Columns.Event.description := "";
     Columns.Event.location := "";
     Columns.Event.start_datetime := 0;
     Columns.Event.end_datetime := None;
     Columns.Event.capacity := capacity;
     Columns.Event.price := 0;
     Columns.Event.created_at := 0;
     Columns.Event.updated_at := 0 |}.

Definition plain_ticket (event : Z) (quantity : N) (status : Status)
    : Columns.Ticket.t :=
  {| Columns.Ticket.event := event;
     Columns.Ticket.buyer := 1;
     Columns.Ticket.quantity := quantity;
     Columns.Ticket.total := 0;
     Columns.Ticket.status := status;
     Columns.Ticket.purchased_at := 0 |}.

(** A base constructor that answers an instance of key 1, whatever it is
    given. *)
Definition bound_base_Event : Model Event.t :=
  {| Model__init__ := fun _ _ =>
       Return {| Event.id := Some 1;
                 Event.cols := plain_event None;
                 Event.tickets := Some (RelatedManager 1) |} |}.

Definition bound_base_Ticket : Model Ticket.t :=
  {| Model__init__ := fun _ _ =>
       Return {| Ticket.id := Some 1;
                 Ticket.cols := plain_ticket 1 1 STATUS_PENDING |} |}.

(** An event of key [k] with its reverse manager in place. *)
Definition managed_event (k : Z) (capacity : option N) : Event.t :=
  {| Event.id := Some k;
     Event.cols := plain_event capacity;
     Event.tickets := Some (RelatedManager k) |}.

(** Event 1 has a paid ticket of 3 and a cancelled ticket of 4; event 2 has a
    pending ticket of 8. *)
Definition store_3_4 : DB :=
  {| users := [1];
     events := [Row 1 (plain_event (Some 10%N)); Row 2 (plain_event (Some 5%N))];
     admins := [Row 1 (Columns.EventAdmin.mk 1 1 0)];
     tickets := [Row 1 (plain_ticket 1 3 STATUS_PAID);
                 Row 2 (plain_ticket 2 8 STATUS_PENDING);
                 Row 3 (plain_ticket 1 4 STATUS_CANCELLED)] |}.

(** The store with user 1 and one event of capacity 10, of key 1. *)
Definition store_one_event : DB :=
  Objects.exec (Objects.OpEventInsert (plain_event (Some 10%N)))
    (Objects.exec (Objects.OpUserCreate 1) Objects.empty).

(** A URL configuration whose route [event_detail] takes one argument and
    puts it after [/events/]. *)
Definition events_urls : UrlConf :=
  {| reverse := fun viewname args =>
       match args with
       | [a] =>
           if String.eqb viewname "event_detail"
           then Return ("/events/" ++ a)%string
           else Raise IndexError
       | _ => Raise TypeError
       end |}.

Definition user_ana : User :=
  {| username := Some "ana"%string; User__str__ := "ana"%string |}.

(** A ticket instance of key [k] and quantity [q] for event 1. *)
Definition stored_ticket (k : Z) (q : N) : Ticket.t :=
  {| Ticket.id := Some k; Ticket.cols := plain_ticket 1 q STATUS_PAID |}.

(** The administrator instance of a user for an event of the given title. *)
Definition admin_of (u : User) (title : string) : EventAdmin.t :=
  {| EventAdmin.id := Some 1;
     EventAdmin.user := u;
     EventAdmin.event :=
       {| Event.id := Some 1;
          Event.cols :=
            {| Columns.Event.title := title;
               Columns.Event.description := "";
               Columns.Event.location := "";
               Columns.Event.start_datetime := 0;
               Columns.Event.end_datetime := None;
               Columns.Event.capacity := None;
               Columns.Event.price := 0;
               Columns.Event.created_at := 0;
               Columns.Event.updated_at := 0 |};
          Event.tickets := None |};
     EventAdmin.assigned_at := 0 |}.

(** * Properties *)

(** ** Aggregation *)

Lemma py_or_Sum field qs :
  py_or (Sum field qs) 0
  = fold_right Z.add 0 (map (fun r => Z.of_N (field (data r))) qs).
Proof.
  destruct qs as [|r qs]; [reflexivity|].
  unfold Sum, py_or.
  assert (E : fold_right (fun r0 acc => Z.of_N (field (data r0)) + acc) 0 (r :: qs)
              = fold_right Z.add 0 (map (fun r0 => Z.of_N (field (data r0))) (r :: qs))).
  { generalize (r :: qs) as l; induction l as [|x l IH]; simpl; [reflexivity|].
    now rewrite IH. }
  rewrite E. destruct (Z.eqb_spec (fold_right Z.add 0
    (map (fun r0 => Z.of_N (field (data r0))) (r :: qs))) 0) as [Hz|Hz];
    [now rewrite Hz | reflexivity].
Qed.

Lemma dict_get_alias alias v : dict_get [(alias, v)] alias = v.
Proof. simpl. now rewrite String.eqb_refl. Qed.

Lemma quantity_sum_nonneg k d : 0 <= quantity_sum k d.
Proof.
  unfold quantity_sum.
  induction (filter (fun r => Columns.Ticket.event (data r) =? k) (tickets d))
    as [|r l IH]; simpl; lia.
Qed.

(** What the two methods do, by what the [tickets] attribute holds. *)
Lemma tickets_sold_run w :
  Event.tickets_sold w
  = match Event.tickets (Event.self w) with
    | None => (Raise AttributeError, w)
    | Some m => (Return (quantity_sum (bound_to m) (Event.db w)), w)
    end.
Proof.
  unfold Event.tickets_sold, Event.getattr, Event.aggregate, bind, gets, ret, raise.
  destruct (Event.tickets (Event.self w)) as [[k]|]; [|reflexivity].
  rewrite dict_get_alias. unfold int, quantity_sum, get_queryset, bound_to.
  now rewrite py_or_Sum.
Qed.

Lemma seats_available_run w :
  Event.seats_available w
  = match Event.capacity (Event.self w) with
    | None => (Return None, w)
    | Some c =>
        match Event.tickets (Event.self w) with
        | None => (Raise AttributeError, w)
        | Some m =>
            (Return (Some (Z.max (Z.of_N c - quantity_sum (bound_to m) (Event.db w)) 0)), w)
        end
    end.
Proof.
  unfold Event.seats_available, Event.getattr, Event.aggregate, bind, gets, ret, raise.
  destruct (Event.capacity (Event.self w)) as [c|]; [|reflexivity].
  destruct (Event.tickets (Event.self w)) as [[k]|]; [|reflexivity].
  rewrite dict_get_alias. unfold int, quantity_sum, get_queryset, bound_to.
  now rewrite py_or_Sum.
Qed.

(** With its reverse manager in place, an event's sold count is the sum of
    the quantities of its tickets, and its free seats the capacity less that
    sum, not below zero. *)
Lemma tickets_sold_of_manager e d k :
  Event.tickets e = Some (RelatedManager k) ->
  Event.tickets_sold {| Event.self := e; Event.db := d |}
  = (Return (quantity_sum k d), {| Event.self := e; Event.db := d |}).
Proof. intros E. rewrite tickets_sold_run. cbn [Event.self Event.db]. now rewrite E. Qed.

Lemma seats_available_of_manager e d k c :
  Event.capacity e = Some c ->
  Event.tickets e = Some (RelatedManager k) ->
  Event.seats_available {| Event.self := e; Event.db := d |}
  = (Return (Some (Z.max (Z.of_N c - quantity_sum k d) 0)),
     {| Event.self := e; Event.db := d |}).
Proof.
  intros Ec Et. rewrite seats_available_run. cbn [Event.self Event.db].
  now rewrite Ec, Et.
Qed.

Example tickets_sold_3_4 :
  fst (Event.tickets_sold
         {| Event.self := managed_event 1 (Some 10%N); Event.db := store_3_4 |})
  = Return 7.
Proof. reflexivity. Qed.

Example seats_available_10_less_7 :
  fst (Event.seats_available
         {| Event.self := managed_event 1 (Some 10%N); Event.db := store_3_4 |})
  = Return (Some 3).
Proof. reflexivity. Qed.

Example seats_available_5_less_8 :
  fst (Event.seats_available
         {| Event.self := managed_event 2 (Some 5%N); Event.db := store_3_4 |})
  = Return (Some 0).
Proof. reflexivity. Qed.

Example tickets_sold_no_ticket :
  fst (Event.tickets_sold
         {| Event.self := managed_event 3 (Some 10%N); Event.db := store_3_4 |})
  = Return 0.
Proof. reflexivity. Qed.

(** ** The constructors *)

(** [Event.__init__] answers no instance: it passes on what the base
    constructor raises, and raises [TypeError] itself when the base
    constructor answers. *)
Lemma Event_init_run `{Model Event.t} args kwargs :
  Event.__init__ args kwargs
  = match Model__init__ [PyTuple args; PyDict kwargs] [] with
    | Return _ => Raise TypeError
    | Raise x => Raise x
    end.
Proof.
  unfold Event.__init__, Event.assign_tickets.
  destruct (Model__init__ [PyTuple args; PyDict kwargs] []); reflexivity.
Qed.

(** ** The aggregate methods *)

(** C3: for every Event whose capacity is [None], [seats_available] answers
    [None], the mark of no limit, whatever tickets are stored and whatever
    the [tickets] attribute holds. *)
Theorem seats_available_unlimited (e : Event.t) (d : DB) :
  Event.capacity e = None ->
  Event.seats_available {| Event.self := e; Event.db := d |}
  = (Return None, {| Event.self := e; Event.db := d |}).
Proof.
  intros E. rewrite seats_available_run. cbn [Event.self]. now rewrite E.
Qed.

Lemma seats_available_unlimited_witness :
  Event.capacity (managed_event 2 None) = None
  /\ quantity_sum 2 store_3_4 = 8
  /\ Event.seats_available
       {| Event.self := managed_event 2 None; Event.db := store_3_4 |}
     = (Return None,
        {| Event.self := managed_event 2 None; Event.db := store_3_4 |}).
Proof.
  split; [reflexivity|]. split; [reflexivity|].
  apply (seats_available_unlimited (managed_event 2 None) store_3_4).
  reflexivity.
Defined.

(** C8: [seats_available] has no side effect: whether it answers or raises,
    the instance and the stored rows are afterwards what they were; a second
    call answers what the first did; and the answer is fixed by the capacity
    of the instance, by its [tickets] attribute and by the stored tickets. *)
Theorem seats_available_reads_only (w : Event.World) :
  snd (Event.seats_available w) = w
  /\ Event.seats_available (snd (Event.seats_available w))
     = Event.seats_available w
  /\ (forall w' : Event.World,
        Event.capacity (Event.self w') = Event.capacity (Event.self w) ->
        Event.tickets (Event.self w') = Event.tickets (Event.self w) ->
        tickets (Event.db w') = tickets (Event.db w) ->
        fst (Event.seats_available w') = fst (Event.seats_available w)).
Proof.
  assert (S : snd (Event.seats_available w) = w).
  { rewrite seats_available_run.
    destruct (Event.capacity (Event.self w)); [|reflexivity].
    destruct (Event.tickets (Event.self w)); reflexivity. }
  split; [exact S|]. split; [now rewrite S|].
  intros w' Ec Et Ed. rewrite !seats_available_run, Ec, Et.
  destruct (Event.capacity (Event.self w)); [|reflexivity].
  destruct (Event.tickets (Event.self w)) as [m|]; [|reflexivity].
  unfold quantity_sum. now rewrite Ed.
Qed.

Lemma seats_available_reads_only_witness :
  fst (Event.seats_available
         {| Event.self := managed_event 1 (Some 10%N);
            Event.db := Objects.set_admins [] store_3_4 |})
  = fst (Event.seats_available
           {| Event.self := Event.set_id None (managed_event 1 (Some 10%N));
              Event.db := store_3_4 |}).
Proof.
  apply (proj2 (proj2 (seats_available_reads_only
    {| Event.self := Event.set_id None (managed_event 1 (Some 10%N));
       Event.db := store_3_4 |}))); reflexivity.
Defined.

(** C10: for every Event whose capacity is set, an answer of
    [seats_available] is between 0 and the capacity; and whenever
    [tickets_sold] answers a count that is at most the capacity,
    [seats_available] answers too, and the two answers add up to the
    capacity. *)
Theorem seats_available_tickets_sold_consistent (e : Event.t) (d : DB) (c : N) :
  Event.capacity e = Some c ->
  (forall n : Z,
     fst (Event.seats_available {| Event.self := e; Event.db := d |})
     = Return (Some n) ->
     0 <= n <= Z.of_N c)
  /\ (forall s : Z,
        fst (Event.tickets_sold {| Event.self := e; Event.db := d |}) = Return s ->
        s <= Z.of_N c ->
        exists n : Z,
          fst (Event.seats_available {| Event.self := e; Event.db := d |})
          = Return (Some n)
          /\ n + s = Z.of_N c).
Proof.
  intros Ec. rewrite seats_available_run, tickets_sold_run.
  cbn [Event.self Event.db]. rewrite Ec.
  destruct (Event.tickets e) as [m|]; cbn [fst].
  - pose proof (quantity_sum_nonneg (bound_to m) d) as Hs. split.
    + intros n E. injection E as <-. lia.
    + intros s E Hle. injection E as <-.
      exists (Z.of_N c - quantity_sum (bound_to m) d). split; [|lia].
      f_equal. f_equal. lia.
  - split; intros ? E; discriminate.
Qed.

Lemma seats_available_tickets_sold_consistent_witness :
  (exists n : Z,
     fst (Event.seats_available
            {| Event.self := managed_event 1 (Some 10%N); Event.db := store_3_4 |})
     = Return (Some n)
     /\ n + 7 = 10)
  /\ 0 <= 0 <= 5.
Proof.
  split.
  - apply (proj2 (seats_available_tickets_sold_consistent
                    (managed_event 1 (Some 10%N)) store_3_4 10%N eq_refl) 7);
      [reflexivity | lia].
  - apply (proj1 (seats_available_tickets_sold_consistent
                    (managed_event 2 (Some 5%N)) store_3_4 5%N eq_refl) 0).
    reflexivity.
Defined.

(** ** The store *)

Ltac run_store :=
  unfold Objects.User_create, Objects.Event_create, Objects.Event_insert,
    Objects.EventAdmin_create, Objects.Ticket_create, Objects.Event_delete,
    Objects.User_delete,
    bind, gets, modify, ret, raise.

Lemma pair_taken_In u e table :
  Objects.pair_taken u e table = true
  <-> In (u, e)
        (map (fun r => (Columns.EventAdmin.user (data r),
                        Columns.EventAdmin.event (data r))) table).
Proof.
  unfold Objects.pair_taken. rewrite existsb_exists, in_map_iff.
  split.
  - intros [r [Hin Hb]]. apply andb_true_iff in Hb as [Hu He].
    apply Z.eqb_eq in Hu, He. exists r. split; [congruence | exact Hin].
  - intros [r [Heq Hin]]. injection Heq as Hu He. exists r. split; [exact Hin|].
    apply andb_true_iff. split; now apply Z.eqb_eq.
Qed.

Lemma filter_keeps_keys_distinct {R K : Type} (keep : R -> bool) (key : R -> K)
    (rows : list R) (Hnd : NoDup (map key rows)) :
  NoDup (map key (filter keep rows)).
Proof.
  revert Hnd. induction rows as [|x rows IH]; simpl; intros Hnd; [constructor|].
  apply NoDup_cons_iff in Hnd as [Hnin Hnd].
  destruct (keep x); simpl; [constructor|]; auto.
  intros Hin. apply Hnin. apply in_map_iff in Hin as [y [Hy Hin]].
  apply in_map_iff. exists y. split; [exact Hy|].
  now apply filter_In in Hin as [Hin _].
Qed.

Lemma NoDup_snoc {A : Type} (l : list A) (x : A) :
  NoDup l -> ~ In x l -> NoDup (l ++ [x]).
Proof.
  induction l as [|y l IH]; simpl; intros Hnd Hnin.
  - constructor; [intros []|constructor].
  - inversion Hnd as [|? ? Hy Hl]; subst. constructor.
    + rewrite in_app_iff. intros [H|[H|[]]]; [now apply Hy | subst; tauto].
    + apply IH; tauto.
Qed.

(** What [EventAdmin_create] does, case by case. *)
Lemma EventAdmin_create_run u e now d :
  Objects.EventAdmin_create u e now d
  = if Objects.pair_taken u e (admins d)
    then (Raise (IntegrityError UniqueViolation), d)
    else if Objects.has_user u d && Objects.has_event e d
         then (Return (Row (fresh_pk (admins d)) (Columns.EventAdmin.mk u e now)),
               Objects.set_admins
                 (admins d
                  ++ [Row (fresh_pk (admins d)) (Columns.EventAdmin.mk u e now)]) d)
         else (Raise (IntegrityError ForeignKeyViolation), d).
Proof.
  run_store.
  destruct (Objects.pair_taken u e (admins d)); [reflexivity|].
  destruct (Objects.has_user u d && Objects.has_event e d); reflexivity.
Qed.

(** Every operation keeps the pairs of the [EventAdmin] rows distinct. *)
Lemma exec_keeps_pairs_distinct o d :
  NoDup (Objects.admin_pairs d) -> NoDup (Objects.admin_pairs (Objects.exec o d)).
Proof.
  intros H.
  destruct o as [k|k|c|k|u e now|e b q tot st now|c]; cbn [Objects.exec].
  - run_store. destruct (Objects.has_user k d); exact H.
  - run_store. cbn [snd]. unfold Objects.admin_pairs. cbn [admins].
    now apply filter_keeps_keys_distinct.
  - run_store. exact H.
  - run_store. destruct (Objects.has_event k d); exact H.
  - rewrite EventAdmin_create_run.
    destruct (Objects.pair_taken u e (admins d)) eqn:Ht; [exact H|].
    destruct (Objects.has_user u d && Objects.has_event e d); [|exact H].
    cbn [snd]. unfold Objects.admin_pairs, Objects.set_admins. cbn [admins].
    rewrite map_app. cbn [map data Columns.EventAdmin.user Columns.EventAdmin.event].
    apply NoDup_snoc; [exact H|].
    intros Hin. apply pair_taken_In in Hin. congruence.
  - run_store. destruct (_ <? 0); [exact H|].
    destruct (negb _); exact H.
  - run_store. exact H.
Qed.

(** C5: the pair [(user, event)] of [EventAdmin] is unique: in every store
    the operations reach, no two rows have the same pair; creating an
    [EventAdmin] for a pair that a stored row has raises [IntegrityError] for
    the uniqueness constraint and leaves the store as it was; so a second
    creation for the pair of a first, successful one fails that way. *)
Theorem EventAdmin_pair_unique :
  (forall d : DB, Objects.reachable d -> NoDup (Objects.admin_pairs d))
  /\ (forall (u e now : Z) (d : DB),
        In (u, e) (Objects.admin_pairs d) ->
        Objects.EventAdmin_create u e now d
        = (Raise (IntegrityError UniqueViolation), d))
  /\ (forall (u e now now' : Z) (d d1 : DB) (r : row Columns.EventAdmin.t),
        Objects.EventAdmin_create u e now d = (Return r, d1) ->
        Objects.EventAdmin_create u e now' d1
        = (Raise (IntegrityError UniqueViolation), d1)).
Proof.
  assert (Second : forall (u e now : Z) (d : DB),
            In (u, e) (Objects.admin_pairs d) ->
            Objects.EventAdmin_create u e now d
            = (Raise (IntegrityError UniqueViolation), d)).
  { intros u e now d Hin. rewrite EventAdmin_create_run.
    apply pair_taken_In in Hin. now rewrite Hin. }
  split; [|split; [exact Second|]].
  - intros d R. induction R as [|o d R IH]; [constructor|].
    now apply exec_keeps_pairs_distinct.
  - intros u e now now' d d1 r E. apply Second.
    rewrite EventAdmin_create_run in E.
    destruct (Objects.pair_taken u e (admins d)); [discriminate|].
    destruct (Objects.has_user u d && Objects.has_event e d); [|discriminate].
    injection E as _ <-.
    unfold Objects.admin_pairs, Objects.set_admins. cbn [admins].
    rewrite map_app, in_app_iff. right. left. reflexivity.
Qed.

Lemma reachable_one_event : Objects.reachable store_one_event.
Proof. do 2 apply Objects.reachable_exec. apply Objects.reachable_empty. Qed.

Lemma EventAdmin_pair_unique_witness :
  Objects.EventAdmin_create 1 1 100 store_one_event
  = (Return (Row 1 (Columns.EventAdmin.mk 1 1 100)),
     Objects.exec (Objects.OpEventAdminCreate 1 1 100) store_one_event)
  /\ Objects.EventAdmin_create 1 1 200
       (Objects.exec (Objects.OpEventAdminCreate 1 1 100) store_one_event)
     = (Raise (IntegrityError UniqueViolation),
        Objects.exec (Objects.OpEventAdminCreate 1 1 100) store_one_event).
Proof.
  split; [reflexivity|].
  apply (proj2 (proj2 EventAdmin_pair_unique) 1 1 100 200 store_one_event _
           (Row 1 (Columns.EventAdmin.mk 1 1 100))).
  reflexivity.
Defined.

(** C6, at a stored event: deleting the event of key [k] raises [TypeError]
    when an event of key [k] is stored and answers when none is, and the
    store is left as it was either way; so the deletion of event 1, which has
    two tickets and one administrator, raises and every row stays. *)
Theorem Event_delete_removes_nothing :
  (forall (k : Z) (d : DB),
     Objects.Event_delete k d
     = (if Objects.has_event k d then Raise TypeError else Return tt, d))
  /\ Objects.has_event 1 store_3_4 = true
  /\ Objects.Event_delete 1 store_3_4 = (Raise TypeError, store_3_4)
  /\ tickets (snd (Objects.Event_delete 1 store_3_4))
     = [Row 1 (plain_ticket 1 3 STATUS_PAID);
        Row 2 (plain_ticket 2 8 STATUS_PENDING);
        Row 3 (plain_ticket 1 4 STATUS_CANCELLED)]
  /\ admins (snd (Objects.Event_delete 1 store_3_4))
     = [Row 1 (Columns.EventAdmin.mk 1 1 0)].
Proof.
  split; [|repeat split].
  intros k d. run_store. destruct (Objects.has_event k d); reflexivity.
Qed.

(** What [Ticket_create] does, case by case. *)
Lemma Ticket_create_run ev b q tot st now d :
  Objects.Ticket_create ev b q tot st now d
  = if match q with Some z => z | None => 1 end <? 0
    then (Raise (IntegrityError CheckViolation), d)
    else if Objects.has_event ev d && Objects.has_user b d
         then
           (Return (Row (fresh_pk (tickets d))
                      (Columns.Ticket.mk ev b
                         (Z.to_N match q with Some z => z | None => 1 end) tot
                         match st with Some s => s | None => STATUS_PENDING end
                         now)),
            Objects.set_tickets
              (tickets d
               ++ [Row (fresh_pk (tickets d))
                     (Columns.Ticket.mk ev b
                        (Z.to_N match q with Some z => z | None => 1 end) tot
                        match st with Some s => s | None => STATUS_PENDING end
                        now)]) d)
         else (Raise (IntegrityError ForeignKeyViolation), d).
Proof.
  run_store.
  destruct (match q with Some z => z | None => 1 end <? 0); [reflexivity|].
  destruct (Objects.has_event ev d && Objects.has_user b d); reflexivity.
Qed.

(** C7 as stated fails: a ticket of quantity 0 is created and stored. *)
Lemma stored_ticket_of_quantity_zero :
  Objects.Ticket_create 1 1 (Some 0) 0 None 50 store_one_event
  = (Return (Row 1 (Columns.Ticket.mk 1 1 0%N 0 STATUS_PENDING 50)),
     Objects.exec (Objects.OpTicketCreate 1 1 (Some 0) 0 None 50) store_one_event)
  /\ Objects.reachable
       (Objects.exec (Objects.OpTicketCreate 1 1 (Some 0) 0 None 50) store_one_event)
  /\ In (Row 1 (Columns.Ticket.mk 1 1 0%N 0 STATUS_PENDING 50))
       (tickets
          (Objects.exec (Objects.OpTicketCreate 1 1 (Some 0) 0 None 50)
             store_one_event))
  /\ Z.of_N (Columns.Ticket.quantity
               (data (Row 1 (Columns.Ticket.mk 1 1 0%N 0 STATUS_PENDING 50)))) < 1.
Proof.
  split; [reflexivity|]. split.
  { apply Objects.reachable_exec, reachable_one_event. }
  split; [left; reflexivity | reflexivity].
Qed.

(** C7, amended: the quantity of every stored Ticket is a non-negative
    integer, and 0 is one of them: a creation that answers has stored a row
    whose quantity is the one asked for, or 1 when none was asked for; a
    creation with a negative quantity raises [IntegrityError] for the check
    and stores nothing; a creation with a quantity of at least 0, or with
    none, for a stored event and a known buyer answers. *)
Theorem Ticket_quantity_stored :
  (forall (d : DB) (r : row Columns.Ticket.t),
     In r (tickets d) -> 0 <= Z.of_N (Columns.Ticket.quantity (data r)))
  /\ (forall ev b q tot st now d r d1,
        Objects.Ticket_create ev b q tot st now d = (Return r, d1) ->
        In r (tickets d1)
        /\ Z.of_N (Columns.Ticket.quantity (data r))
           = match q with Some z => z | None => 1 end)
  /\ (forall ev b z tot st now d,
        z < 0 ->
        Objects.Ticket_create ev b (Some z) tot st now d
        = (Raise (IntegrityError CheckViolation), d))
  /\ (forall ev b q tot st now d,
        0 <= match q with Some z => z | None => 1 end ->
        Objects.has_event ev d = true ->
        Objects.has_user b d = true ->
        exists r d1, Objects.Ticket_create ev b q tot st now d = (Return r, d1)).
Proof.
  split; [intros; lia|]. split; [|split].
  - intros ev b q tot st now d r d1 E. rewrite Ticket_create_run in E.
    destruct (Z.ltb_spec (match q with Some z => z | None => 1 end) 0) as [Hq|Hq];
      [discriminate|].
    destruct (Objects.has_event ev d && Objects.has_user b d); [|discriminate].
    injection E as <- <-. split.
    + unfold Objects.set_tickets. cbn [tickets]. rewrite in_app_iff.
      right. left. reflexivity.
    + cbn [data Columns.Ticket.quantity]. now rewrite Z2N.id.
  - intros ev b z tot st now d Hz. rewrite Ticket_create_run.
    apply Z.ltb_lt in Hz. now rewrite Hz.
  - intros ev b q tot st now d Hq He Hb. rewrite Ticket_create_run.
    apply Z.ltb_ge in Hq. rewrite Hq, He, Hb. cbn [andb].
    eexists; eexists; reflexivity.
Qed.

Lemma Ticket_quantity_stored_witness :
  Z.of_N (Columns.Ticket.quantity
            (data (Row 1 (Columns.Ticket.mk 1 1 1%N 0 STATUS_PENDING 50))))
  = 1
  /\ Objects.Ticket_create 1 1 (Some (-2)) 0 None 50 store_one_event
     = (Raise (IntegrityError CheckViolation), store_one_event).
Proof.
  split.
  - apply (proj1 (proj2 Ticket_quantity_stored) 1 1 None 0 None 50 store_one_event
             (Row 1 (Columns.Ticket.mk 1 1 1%N 0 STATUS_PENDING 50))
             (Objects.exec (Objects.OpTicketCreate 1 1 None 0 None 50)
                store_one_event)).
    reflexivity.
  - apply (proj1 (proj2 (proj2 Ticket_quantity_stored))). lia.
Defined.

(** * Further properties *)

(** ** Foreign keys *)

Lemma mem_pk_In k keys : mem_pk k keys = true <-> In k keys.
Proof.
  unfold mem_pk. rewrite existsb_exists. split.
  - intros [x [Hin Hx]]. apply Z.eqb_eq in Hx. now subst.
  - intros Hin. exists k. split; [exact Hin | apply Z.eqb_refl].
Qed.

Lemma has_user_In k d : Objects.has_user k d = true <-> In k (users d).
Proof. apply mem_pk_In. Qed.

Lemma has_event_In k d :
  Objects.has_event k d = true <-> exists r, In r (events d) /\ pk r = k.
Proof.
  unfold Objects.has_event. rewrite mem_pk_In, in_map_iff.
  split; intros [r [H1 H2]]; exists r; tauto.
Qed.

(** [references_kept], with the keys as members of the tables. *)
Lemma references_kept_In d :
  references_kept d
  <-> (forall r, In r (tickets d) ->
         (exists e, In e (events d) /\ pk e = Columns.Ticket.event (data r))
         /\ In (Columns.Ticket.buyer (data r)) (users d))
      /\ (forall r, In r (admins d) ->
            In (Columns.EventAdmin.user (data r)) (users d)
            /\ exists e, In e (events d) /\ pk e = Columns.EventAdmin.event (data r)).
Proof.
  unfold references_kept.
  split; intros [Ht Ha]; split; intros r Hr.
  - destruct (Ht r Hr) as [H1 H2]. now rewrite <- has_event_In, <- has_user_In.
  - destruct (Ha r Hr) as [H1 H2]. now rewrite <- has_event_In, <- has_user_In.
  - destruct (Ht r Hr) as [H1 H2]. now rewrite has_event_In, has_user_In.
  - destruct (Ha r Hr) as [H1 H2]. now rewrite has_event_In, has_user_In.
Qed.

Lemma exec_keeps_references o d :
  references_kept d -> references_kept (Objects.exec o d).
Proof.
  intros H.
  destruct o as [k|k|c|k|u e now|e b q tot st now|c]; cbn [Objects.exec].
  - run_store. destruct (Objects.has_user k d); [exact H|]. cbn [snd].
    apply references_kept_In in H as [Ht Ha]. apply references_kept_In.
    unfold Objects.set_users; cbn [tickets admins events users].
    split; intros r Hr.
    + destruct (Ht r Hr) as [H1 H2]. split; [exact H1|].
      apply in_or_app. now left.
    + destruct (Ha r Hr) as [H1 H2]. split; [|exact H2].
      apply in_or_app. now left.
  - run_store. cbn [snd].
    apply references_kept_In in H as [Ht Ha]. apply references_kept_In.
    cbn [tickets admins events users].
    split; intros r Hr; apply filter_In in Hr as [Hr Hk];
      apply negb_true_iff, Z.eqb_neq in Hk.
    + destruct (Ht r Hr) as [H1 H2]. split; [exact H1|].
      apply filter_In. split; [exact H2|]. now apply negb_true_iff, Z.eqb_neq.
    + destruct (Ha r Hr) as [H1 H2]. split; [|exact H2].
      apply filter_In. split; [exact H1|]. now apply negb_true_iff, Z.eqb_neq.
  - run_store. exact H.
  - run_store. destruct (Objects.has_event k d); exact H.
  - rewrite EventAdmin_create_run.
    destruct (Objects.pair_taken u e (admins d)); [exact H|].
    destruct (Objects.has_user u d && Objects.has_event e d) eqn:Hk; [|exact H].
    apply andb_true_iff in Hk as [Hu He]. cbn [snd].
    destruct H as [Ht Ha]. split; [exact Ht|].
    unfold Objects.set_admins; cbn [admins]. intros r Hr.
    apply in_app_or in Hr as [Hr|[<-|[]]]; [now apply Ha|].
    cbn [data Columns.EventAdmin.user Columns.EventAdmin.event]. now split.
  - rewrite Ticket_create_run.
    destruct (_ <? 0); [exact H|].
    destruct (Objects.has_event e d && Objects.has_user b d) eqn:Hk; [|exact H].
    apply andb_true_iff in Hk as [He Hb]. cbn [snd].
    destruct H as [Ht Ha]. split; [|exact Ha].
    unfold Objects.set_tickets; cbn [tickets]. intros r Hr.
    apply in_app_or in Hr as [Hr|[<-|[]]]; [now apply Ht|].
    cbn [data Columns.Ticket.event Columns.Ticket.buyer]. now split.
  - run_store. cbn [snd].
    apply references_kept_In in H as [Ht Ha]. apply references_kept_In.
    unfold Objects.set_events; cbn [tickets admins events users].
    split; intros r Hr.
    + destruct (Ht r Hr) as [[x [H1 H1']] H2]. split; [|exact H2].
      exists x. split; [apply in_or_app; now left | exact H1'].
    + destruct (Ha r Hr) as [H1 [x [H2 H2']]]. split; [exact H1|].
      exists x. split; [apply in_or_app; now left | exact H2'].
Qed.

(** X1: in every store the operations reach, the [event] of every Ticket
    and of every EventAdmin is the key of a stored event, and the [buyer] of
    every Ticket and the [user] of every EventAdmin is a known user: the
    creations check the foreign keys, the deletion of a user cascades and
    no stored event is ever removed. *)
Theorem reachable_references_kept (d : DB) :
  Objects.reachable d -> references_kept d.
Proof.
  intros R. induction R as [|o d R IH].
  - split; intros r [].
  - now apply exec_keeps_references.
Qed.

Lemma reachable_references_kept_witness :
  references_kept
    (Objects.exec (Objects.OpUserDelete 1)
       (Objects.exec (Objects.OpTicketCreate 1 1 (Some 2) 0 None 5)
          store_one_event))
  /\ tickets
       (Objects.exec (Objects.OpUserDelete 1)
          (Objects.exec (Objects.OpTicketCreate 1 1 (Some 2) 0 None 5)
             store_one_event))
     = [].
Proof.
  split; [|reflexivity].
  apply (reachable_references_kept
           (Objects.exec (Objects.OpUserDelete 1)
              (Objects.exec (Objects.OpTicketCreate 1 1 (Some 2) 0 None 5)
                 store_one_event))).
  do 2 apply Objects.reachable_exec. exact reachable_one_event.
Defined.

(** ** Tickets and the aggregate methods *)

Lemma sum_app (l l' : list Z) :
  fold_right Z.add 0 (l ++ l') = fold_right Z.add 0 l + fold_right Z.add 0 l'.
Proof. induction l as [|x l IH]; simpl; lia. Qed.

Lemma quantity_sum_snoc k d r :
  quantity_sum k (Objects.set_tickets (tickets d ++ [r]) d)
  = quantity_sum k d
    + (if Columns.Ticket.event (data r) =? k
       then Z.of_N (Columns.Ticket.quantity (data r)) else 0).
Proof.
  unfold quantity_sum, Objects.set_tickets. cbn [tickets].
  rewrite filter_app, map_app, sum_app. f_equal. cbn [filter].
  destruct (Columns.Ticket.event (data r) =? k); simpl; lia.
Qed.

(** X4: a Ticket that is created for an event adds its quantity (1 when
    none was given) to what [tickets_sold] answers for that event, and
    nothing to what it answers for any other event. *)
Theorem Ticket_create_adds_to_sold ev b q tot st now d r d1 (e : Event.t) (s : Z) :
  Objects.Ticket_create ev b q tot st now d = (Return r, d1) ->
  fst (Event.tickets_sold {| Event.self := e; Event.db := d |}) = Return s ->
  fst (Event.tickets_sold {| Event.self := e; Event.db := d1 |})
  = Return (match Event.tickets e with
            | Some (RelatedManager k) =>
                if ev =? k then s + match q with Some z => z | None => 1 end
                else s
            | None => s
            end).
Proof.
  intros E Hs. rewrite tickets_sold_run in *. cbn [Event.self Event.db] in *.
  destruct (Event.tickets e) as [[k]|]; [|discriminate]. cbn [fst bound_to] in *.
  injection Hs as <-.
  rewrite Ticket_create_run in E.
  destruct (Z.ltb_spec (match q with Some z => z | None => 1 end) 0) as [Hq|Hq];
    [discriminate|].
  destruct (Objects.has_event ev d && Objects.has_user b d); [|discriminate].
  injection E as <- <-. rewrite quantity_sum_snoc.
  cbn [data Columns.Ticket.event Columns.Ticket.quantity].
  destruct (ev =? k); [|now rewrite Z.add_0_r]. now rewrite Z2N.id.
Qed.

Lemma Ticket_create_adds_to_sold_witness :
  fst (Event.tickets_sold
         {| Event.self := managed_event 1 (Some 10%N);
            Event.db :=
              Objects.exec (Objects.OpTicketCreate 1 1 (Some 2) 0 None 5)
                store_3_4 |})
  = Return 9.
Proof.
  apply (Ticket_create_adds_to_sold 1 1 (Some 2) 0 None 5 store_3_4
           (Row 4 (Columns.Ticket.mk 1 1 2%N 0 STATUS_PENDING 5))
           (Objects.exec (Objects.OpTicketCreate 1 1 (Some 2) 0 None 5) store_3_4)
           (managed_event 1 (Some 10%N)) 7); reflexivity.
Defined.

(** X5: no creation of a Ticket is refused for lack of seats. For an event
    of capacity [c] whose sold count is [s], a Ticket of any quantity
    [q >= 0] with [s + q > c] is created all the same when the event is
    stored and the buyer known; afterwards [tickets_sold] answers [s + q],
    more than the capacity, and [seats_available] answers 0. *)
Theorem Ticket_create_oversells (e : Event.t) (k : Z) (c : N) (s q b tot now : Z)
    (st : option Status) (d : DB) :
  Event.capacity e = Some c ->
  Event.tickets e = Some (RelatedManager k) ->
  fst (Event.tickets_sold {| Event.self := e; Event.db := d |}) = Return s ->
  Objects.has_event k d = true ->
  Objects.has_user b d = true ->
  0 <= q ->
  Z.of_N c < s + q ->
  exists r d1,
    Objects.Ticket_create k b (Some q) tot st now d = (Return r, d1)
    /\ fst (Event.tickets_sold {| Event.self := e; Event.db := d1 |})
       = Return (s + q)
    /\ fst (Event.seats_available {| Event.self := e; Event.db := d1 |})
       = Return (Some 0).
Proof.
  intros Hc Hm Hs He Hb Hq Hover.
  rewrite tickets_sold_run in Hs. cbn [Event.self Event.db] in Hs.
  rewrite Hm in Hs. cbn [fst bound_to] in Hs. injection Hs as <-.
  rewrite Ticket_create_run. apply Z.ltb_ge in Hq. rewrite Hq, He, Hb.
  cbn [andb]. eexists; eexists. split; [reflexivity|].
  rewrite tickets_sold_run, seats_available_run. cbn [Event.self Event.db].
  rewrite Hc, Hm. cbn [fst bound_to]. rewrite quantity_sum_snoc.
  cbn [data Columns.Ticket.event Columns.Ticket.quantity].
  rewrite Z.eqb_refl, Z2N.id by now apply Z.ltb_ge.
  split; [reflexivity|]. f_equal. f_equal. lia.
Qed.

Lemma Ticket_create_oversells_witness :
  exists r d1,
    Objects.Ticket_create 1 1 (Some 20) 0 None 5 store_3_4 = (Return r, d1)
    /\ fst (Event.tickets_sold
              {| Event.self := managed_event 1 (Some 10%N); Event.db := d1 |})
       = Return (7 + 20)
    /\ fst (Event.seats_available
              {| Event.self := managed_event 1 (Some 10%N); Event.db := d1 |})
       = Return (Some 0).
Proof.
  apply (Ticket_create_oversells (managed_event 1 (Some 10%N)) 1 10%N 7 20 1 0 5
           None store_3_4); try reflexivity; lia.
Defined.

Lemma quantity_sum_restatus f k d : quantity_sum k (restatus f d) = quantity_sum k d.
Proof.
  unfold quantity_sum, restatus, Objects.set_tickets. cbn [tickets].
  induction (tickets d) as [|r l IH]; [reflexivity|].
  cbn [map filter data with_status Columns.Ticket.event].
  destruct (Columns.Ticket.event (data r) =? k); [|exact IH].
  cbn [map fold_right data Columns.Ticket.quantity]. now rewrite IH.
Qed.

(** X7: the status of the tickets plays no part in the aggregate methods:
    whatever status every stored ticket is given (paid, pending or
    cancelled), [tickets_sold] and [seats_available] answer what they
    answered before; a cancelled ticket still takes its seats. *)
Theorem aggregates_ignore_status (f : row Columns.Ticket.t -> Status)
    (e : Event.t) (d : DB) :
  fst (Event.tickets_sold {| Event.self := e; Event.db := restatus f d |})
  = fst (Event.tickets_sold {| Event.self := e; Event.db := d |})
  /\ fst (Event.seats_available {| Event.self := e; Event.db := restatus f d |})
     = fst (Event.seats_available {| Event.self := e; Event.db := d |}).
Proof.
  rewrite !tickets_sold_run, !seats_available_run. cbn [Event.self Event.db].
  destruct (Event.tickets e) as [m|].
  - rewrite quantity_sum_restatus. split; [reflexivity|].
    destruct (Event.capacity e); reflexivity.
  - split; [reflexivity|]. destruct (Event.capacity e); reflexivity.
Qed.

Example cancelling_every_ticket_frees_no_seat :
  fst (Event.seats_available
         {| Event.self := managed_event 1 (Some 10%N);
            Event.db := restatus (fun _ => STATUS_CANCELLED) store_3_4 |})
  = Return (Some 3).
Proof. reflexivity. Qed.

(** X8: for an Event whose capacity is set, when [tickets_sold] answers [s]:
    [seats_available] answers 0 exactly when [s] has reached the capacity,
    and a positive number, the capacity less [s], exactly when it has not. *)
Theorem seats_available_zero_iff_sold_out (e : Event.t) (d : DB) (c : N) (s : Z) :
  Event.capacity e = Some c ->
  fst (Event.tickets_sold {| Event.self := e; Event.db := d |}) = Return s ->
  (fst (Event.seats_available {| Event.self := e; Event.db := d |})
   = Return (Some 0)
   <-> Z.of_N c <= s)
  /\ (s < Z.of_N c ->
      fst (Event.seats_available {| Event.self := e; Event.db := d |})
      = Return (Some (Z.of_N c - s))
      /\ 0 < Z.of_N c - s).
Proof.
  intros Hc Hs. rewrite tickets_sold_run in Hs. rewrite seats_available_run.
  cbn [Event.self Event.db] in *. rewrite Hc.
  destruct (Event.tickets e) as [m|]; [|discriminate].
  cbn [fst] in *. injection Hs as <-. split; [split|].
  - intros E. injection E as E. lia.
  - intros H. f_equal. f_equal. lia.
  - intros H. split; [|lia]. f_equal. f_equal. lia.
Qed.

Lemma seats_available_zero_iff_sold_out_witness :
  fst (Event.seats_available
         {| Event.self := managed_event 2 (Some 5%N); Event.db := store_3_4 |})
  = Return (Some 0).
Proof.
  apply (proj1 (seats_available_zero_iff_sold_out (managed_event 2 (Some 5%N))
                  store_3_4 5%N 8 eq_refl eq_refl)).
  lia.
Defined.

Lemma sum_zero_iff (l : list N) :
  fold_right Z.add 0 (map Z.of_N l) = 0 <-> forall x, In x l -> x = 0%N.
Proof.
  induction l as [|x l IH]; simpl; [tauto|].
  pose proof (N2Z.is_nonneg x) as Hx.
  assert (Hl : 0 <= fold_right Z.add 0 (map Z.of_N l)).
  { clear. induction l as [|y l IH]; simpl; lia. }
  split.
  - intros H y [<-|Hy]; [lia|]. apply IH; [lia | exact Hy].
  - intros H. rewrite (H x (or_introl eq_refl)).
    rewrite (proj2 IH); [reflexivity|]. intros y Hy. apply H. now right.
Qed.

(** X9: [tickets_sold] answers 0 exactly when every stored ticket of the
    event has quantity 0, be there such tickets or none: the NULL of an
    empty sum and a sum of 0 give the same answer. *)
Theorem tickets_sold_zero_iff (e : Event.t) (k : Z) (d : DB) :
  Event.tickets e = Some (RelatedManager k) ->
  (fst (Event.tickets_sold {| Event.self := e; Event.db := d |}) = Return 0
   <-> forall r, In r (tickets d) -> Columns.Ticket.event (data r) = k ->
                 Columns.Ticket.quantity (data r) = 0%N).
Proof.
  intros Hm. rewrite tickets_sold_run. cbn [Event.self Event.db].
  rewrite Hm. cbn [fst bound_to]. unfold quantity_sum.
  rewrite <- (map_map (fun r => Columns.Ticket.quantity (data r)) Z.of_N).
  split.
  - intros E. injection E as E. rewrite sum_zero_iff in E.
    intros r Hr Hk. apply E. apply in_map_iff. exists r. split; [reflexivity|].
    apply filter_In. split; [exact Hr | now apply Z.eqb_eq].
  - intros H. f_equal. apply sum_zero_iff. intros x Hx.
    apply in_map_iff in Hx as [r [<- Hr]]. apply filter_In in Hr as [Hr Hk].
    apply H; [exact Hr | now apply Z.eqb_eq].
Qed.

Lemma tickets_sold_zero_iff_witness :
  fst (Event.tickets_sold
         {| Event.self := managed_event 1 None;
            Event.db :=
              Objects.exec (Objects.OpTicketCreate 1 1 (Some 0) 0 None 50)
                store_one_event |})
  = Return 0.
Proof.
  apply (proj2 (tickets_sold_zero_iff (managed_event 1 None) 1
                  (Objects.exec (Objects.OpTicketCreate 1 1 (Some 0) 0 None 50)
                     store_one_event) eq_refl)).
  intros r [<-|[]] _. reflexivity.
Defined.

(** ** Keys as text *)

Lemma to_int_not_nil z :
  Z.to_int z <> Decimal.Pos Decimal.Nil /\ Z.to_int z <> Decimal.Neg Decimal.Nil.
Proof.
  destruct z as [|p|p]; cbn [Z.to_int]; split; try discriminate;
    intros E; injection E as E; now apply (DecimalPos.Unsigned.to_uint_nonnil p).
Qed.

(** Reading back the text of an integer gives the integer. *)
Lemma int_of_str_int z :
  option_map Z.of_int (NilZero.int_of_string (str_int z)) = Some z.
Proof.
  unfold str_int. destruct (to_int_not_nil z) as [H1 H2].
  rewrite NilZero.isi by assumption. cbn [option_map].
  now rewrite DecimalZ.of_to.
Qed.

Lemma str_int_inj a b : str_int a = str_int b -> a = b.
Proof.
  intros E. pose proof (int_of_str_int a) as Ha.
  rewrite E, int_of_str_int in Ha. now injection Ha.
Qed.

Lemma str_key_inj a b : str_key a = str_key b -> a = b.
Proof.
  destruct a as [x|], b as [y|]; cbn [str_key]; intros E.
  - f_equal. now apply str_int_inj.
  - pose proof (int_of_str_int x) as Hx. rewrite E in Hx. discriminate Hx.
  - pose proof (int_of_str_int y) as Hy. rewrite <- E in Hy. discriminate Hy.
  - reflexivity.
Qed.

Lemma no_space_uint d : no_space (NilEmpty.string_of_uint d) = true.
Proof. induction d; cbn; auto. Qed.

Lemma no_space_str_key k : no_space (str_key k) = true.
Proof.
  destruct k as [z|]; [|reflexivity].
  unfold str_key, str_int, NilZero.string_of_int, NilZero.string_of_uint.
  destruct (Z.to_int z) as [d|d]; destruct d; cbn [no_space];
    try reflexivity; try apply no_space_uint;
    rewrite ?no_space_uint; reflexivity.
Qed.

(** Two texts without a space that are followed by a space: where the
    wholes agree, so do the texts and what follows them. *)
Lemma split_at_space (a b x y : string) :
  no_space a = true -> no_space b = true ->
  (a ++ String " " x)%string = (b ++ String " " y)%string ->
  a = b /\ x = y.
Proof.
  revert b. induction a as [|c a IH]; intros [|c' b] Ha Hb E; cbn in *.
  - injection E as E. now split.
  - injection E as E1 E2. subst c'. discriminate Hb.
  - injection E as E1 E2. subst c. discriminate Ha.
  - injection E as E1 E2. subst c'.
    apply andb_true_iff in Ha as [_ Ha], Hb as [_ Hb].
    destruct (IH b Ha Hb E2) as [-> ->]. now split.
Qed.

(** ** Addresses and labels *)

(** X11: under a URL configuration whose route [event_detail] gives
    different addresses to different arguments, two Events that
    [get_absolute_url] gives the same address have the same [id]: the one
    argument it passes is the text of the key, and different keys, [None]
    among them, have different texts. *)
Theorem get_absolute_url_tells_keys_apart (U : UrlConf) (e1 e2 : Event.t)
    (address : string) :
  (forall a b u,
     reverse "event_detail" a = Return u ->
     reverse "event_detail" b = Return u -> a = b) ->
  Event_get_absolute_url e1 = Return address ->
  Event_get_absolute_url e2 = Return address ->
  Event.id e1 = Event.id e2.
Proof.
  unfold Event_get_absolute_url. intros Hinj E1 E2.
  pose proof (Hinj _ _ _ E1 E2) as E. injection E as E.
  now apply str_key_inj.
Qed.

Lemma events_urls_injective a b u :
  @reverse events_urls "event_detail" a = Return u ->
  @reverse events_urls "event_detail" b = Return u -> a = b.
Proof.
  cbn [reverse events_urls].
  destruct a as [|x [|? ?]]; try discriminate.
  destruct b as [|y [|? ?]]; try discriminate.
  rewrite String.eqb_refl. intros E1 E2. rewrite <- E2 in E1.
  injection E1 as E1. now subst.
Qed.

Lemma get_absolute_url_tells_keys_apart_witness :
  @Event_get_absolute_url events_urls (managed_event 12 None)
  = Return "/events/12"%string
  /\ Event.id (managed_event 12 None) = Event.id (managed_event 12 (Some 3%N)).
Proof.
  split; [reflexivity|].
  apply (get_absolute_url_tells_keys_apart events_urls
           (managed_event 12 None) (managed_event 12 (Some 3%N))
           "/events/12"%string events_urls_injective);
    reflexivity.
Defined.

(** X13: the label of a Ticket tells its key: two Tickets with the same
    label have the same [id], whoever bought them and whatever the event. *)
Theorem Ticket_label_tells_key (t1 t2 : Ticket.t) (b1 b2 : User)
    (e1 e2 : Event.t) :
  Ticket__str__ t1 b1 e1 = Ticket__str__ t2 b2 e2 ->
  Ticket.id t1 = Ticket.id t2.
Proof.
  unfold Ticket__str__. cbn zeta.
  change ("Ticket #" ++ ?x)%string
    with (String "T" (String "i" (String "c" (String "k" (String "e"
           (String "t" (String " " (String "#" x)))))))).
  intros E. injection E as E.
  change (" | " ++ ?x)%string with (String " " ("| " ++ x)) in E.
  apply split_at_space in E as [E _]; try apply no_space_str_key.
  now apply str_key_inj.
Qed.

Lemma Ticket_label_tells_key_witness :
  Ticket__str__ (stored_ticket 4 2) user_ana (managed_event 1 None)
  = "Ticket #4 | ana → Final"%string
  /\ Ticket.id (stored_ticket 4 2) = Ticket.id (stored_ticket 4 3).
Proof.
  split; [reflexivity|].
  apply (Ticket_label_tells_key (stored_ticket 4 2) (stored_ticket 4 3)
           user_ana user_ana (managed_event 1 None) (managed_event 1 None)).
  reflexivity.
Defined.

Lemma prefix_of_append (p x : string) : String.prefix p (p ++ x) = true.
Proof.
  induction p as [|c p IH]; cbn; [now destruct x|].
  destruct (ascii_dec c c) as [_|Hn]; [exact IH | now elim Hn].
Qed.

(** X14: whatever the arguments and the base constructor, the label of a
    constructed Ticket begins with [Ticket #None | ]; two constructed
    Tickets of one buyer and one event have the same label. *)
Theorem Ticket_label_after_init (B : Model Ticket.t)
    (args1 args2 : list pyval) (kwargs1 kwargs2 : list (string * pyval))
    (t1 t2 : Ticket.t) (b : User) (e : Event.t) :
  Ticket.__init__ args1 kwargs1 = Return t1 ->
  Ticket.__init__ args2 kwargs2 = Return t2 ->
  String.prefix "Ticket #None | " (Ticket__str__ t1 b e) = true
  /\ Ticket__str__ t1 b e = Ticket__str__ t2 b e.
Proof.
  unfold Ticket.__init__. intros E1 E2.
  destruct (Model__init__ [PyTuple args1; PyDict kwargs1] []) as [s1|];
    [|discriminate].
  destruct (Model__init__ [PyTuple args2; PyDict kwargs2] []) as [s2|];
    [|discriminate].
  injection E1 as <-. injection E2 as <-. split; [|reflexivity].
  apply (prefix_of_append "Ticket #None | ").
Qed.

Lemma Ticket_label_after_init_witness :
  String.prefix "Ticket #None | "
    (Ticket__str__ (Ticket.mk None (plain_ticket 1 1 STATUS_PENDING)) user_ana
       (managed_event 1 None))
  = true.
Proof.
  apply (Ticket_label_after_init bound_base_Ticket [PyInt 3] [] [] []
           (Ticket.mk None (plain_ticket 1 1 STATUS_PENDING))
           (Ticket.mk None (plain_ticket 1 1 STATUS_PENDING))
           user_ana (managed_event 1 None)); reflexivity.
Defined.

Lemma append_same_prefix (p x y : string) :
  (p ++ x)%string = (p ++ y)%string -> x = y.
Proof.
  induction p as [|c p IH]; cbn; intros E; [exact E|].
  injection E as E. now apply IH.
Qed.

(** X15: the label of an EventAdmin is made of the [username] of its user,
    or of [str(user)] when the user has no [username], and of the title of
    its event. When the two names have no space in them, two EventAdmins
    with the same label have the same name and the same event title. *)
Theorem EventAdmin_label_tells_pair (a1 a2 : EventAdmin.t) :
  no_space (getattr_default (username (EventAdmin.user a1))
              (User__str__ (EventAdmin.user a1))) = true ->
  no_space (getattr_default (username (EventAdmin.user a2))
              (User__str__ (EventAdmin.user a2))) = true ->
  EventAdmin.__str__ a1 = EventAdmin.__str__ a2 ->
  getattr_default (username (EventAdmin.user a1))
    (User__str__ (EventAdmin.user a1))
  = getattr_default (username (EventAdmin.user a2))
      (User__str__ (EventAdmin.user a2))
  /\ Columns.Event.title (Event.cols (EventAdmin.event a1))
     = Columns.Event.title (Event.cols (EventAdmin.event a2)).
Proof.
  unfold EventAdmin.__str__. cbn zeta. intros H1 H2 E.
  change (" — admin de " ++ ?x)%string
    with (String " " ("— admin de " ++ x)) in E.
  apply split_at_space in E as [En Et]; [|assumption|assumption].
  split; [exact En|]. now apply append_same_prefix in Et.
Qed.

Lemma EventAdmin_label_tells_pair_witness :
  EventAdmin.__str__ (admin_of user_ana "Final")
  = "ana — admin de Final"%string
  /\ getattr_default (username user_ana) (User__str__ user_ana)
     = getattr_default (username (mkUser None "ana")) "ana"%string.
Proof.
  split; [reflexivity|].
  apply (EventAdmin_label_tells_pair (admin_of user_ana "Final")
           (admin_of (mkUser None "ana") "Final"));
    reflexivity.
Defined.

(** Where a name has a space in it, two different pairs can have one
    label. *)
Example EventAdmin_label_with_spaces :
  EventAdmin.__str__ (admin_of (mkUser (Some "ana — admin de Semi"%string) "") "Final")
  = EventAdmin.__str__ (admin_of user_ana "Semi — admin de Final").
Proof. reflexivity. Qed.

(** ** Construction *)

(** C9, at every call of the constructor: [Event(...)] constructs no Event.
    Whatever the arguments, it raises what the base constructor raises, and
    when the base constructor answers it raises [TypeError] at the
    assignment to [self.tickets], before [self.id] is assigned; so it does
    over a base constructor that answers. A Ticket that [Ticket(...)]
    constructs has [id] equal to [None]. *)
Theorem Event_init_constructs_nothing :
  (forall (BE : Model Event.t) (args : list pyval)
          (kwargs : list (string * pyval)),
     match Model__init__ [PyTuple args; PyDict kwargs] [] with
     | Return _ => Event.__init__ args kwargs = Raise TypeError
     | Raise x => Event.__init__ args kwargs = Raise x
     end)
  /\ @Event.__init__ bound_base_Event [] [] = Raise TypeError
  /\ @Event.__init__ bound_base_Event [PyInt 7] [("capacity"%string, PyInt 5)]
     = Raise TypeError
  /\ (forall (BT : Model Ticket.t) (args : list pyval)
             (kwargs : list (string * pyval)),
        match Ticket.__init__ args kwargs with
        | Return t => Ticket.id t = None
        | Raise _ => True
        end).
Proof.
  split; [|split; [reflexivity|split; [reflexivity|]]].
  - intros BE args kwargs. rewrite Event_init_run.
    destruct (Model__init__ [PyTuple args; PyDict kwargs] []); reflexivity.
  - intros BT args kwargs. unfold Ticket.__init__.
    destruct (Model__init__ [PyTuple args; PyDict kwargs] []); [reflexivity|exact I].
Qed.

(** ** The aggregate methods on an instance of Event *)



(** C2: on every instance of Event, [tickets_sold] answers the sum of
    [quantity] over the stored tickets whose [event] is the key of the
    instance; the status of the tickets does not enter the sum, which is
    the same whatever status each ticket is given; and the answer is 0 when
    no stored ticket has that key. *)
Theorem tickets_sold_sums_quantities (e : Event.t) (k : Z) (d : DB) :
  Event.of_key k e ->
  Event.tickets_sold {| Event.self := e; Event.db := d |}
  = (Return
       (fold_right Z.add 0
          (map (fun r => Z.of_N (Columns.Ticket.quantity (data r)))
             (filter (fun r => Columns.Ticket.event (data r) =? k) (tickets d)))),
     {| Event.self := e; Event.db := d |})
  /\ (forall f : row Columns.Ticket.t -> Status,
        Event.tickets_sold {| Event.self := e; Event.db := restatus f d |}
        = (Return
             (fold_right Z.add 0
                (map (fun r => Z.of_N (Columns.Ticket.quantity (data r)))
                   (filter (fun r => Columns.Ticket.event (data r) =? k)
                      (tickets d)))),
           {| Event.self := e; Event.db := restatus f d |}))
  /\ ((forall r, In r (tickets d) -> Columns.Ticket.event (data r) <> k) ->
      Event.tickets_sold {| Event.self := e; Event.db := d |}
      = (Return 0, {| Event.self := e; Event.db := d |})).
Proof.
  intros [_ Hm]. split; [now apply tickets_sold_of_manager|]. split.
  - intros f. rewrite (tickets_sold_of_manager e (restatus f d) k Hm).
    now rewrite quantity_sum_restatus.
  - intros Hnone. rewrite (tickets_sold_of_manager e d k Hm).
    f_equal. f_equal. unfold quantity_sum.
    replace (filter (fun r => Columns.Ticket.event (data r) =? k) (tickets d))
      with (@nil (row Columns.Ticket.t)); [reflexivity|].
    symmetry. induction (tickets d) as [|r l IH]; [reflexivity|].
    cbn [filter].
    destruct (Z.eqb_spec (Columns.Ticket.event (data r)) k) as [Hr|Hr].
    + elim (Hnone r (or_introl eq_refl) Hr).
    + apply IH. intros x Hx. apply Hnone. now right.
Qed.

Lemma tickets_sold_sums_quantities_witness :
  Event.tickets_sold
    {| Event.self := managed_event 1 (Some 10%N); Event.db := store_3_4 |}
  = (Return 7,
     {| Event.self := managed_event 1 (Some 10%N); Event.db := store_3_4 |})
  /\ Event.tickets_sold
       {| Event.self := managed_event 3 None; Event.db := store_3_4 |}
     = (Return 0,
        {| Event.self := managed_event 3 None; Event.db := store_3_4 |}).
Proof.
  split.
  - apply (proj1 (tickets_sold_sums_quantities (managed_event 1 (Some 10%N)) 1
                    store_3_4 (conj eq_refl eq_refl))).
  - apply (proj2 (proj2 (tickets_sold_sums_quantities (managed_event 3 None) 3
                           store_3_4 (conj eq_refl eq_refl)))).
    intros r [<-|[<-|[<-|[]]]]; discriminate.
Defined.

(** C1: on every instance of Event whose capacity is set, [tickets_sold]
    answers a count [s], the sum of the quantities of the tickets of the
    instance, and [seats_available] answers [max (capacity - s) 0]: the
    capacity less that sum, and 0 where the sum has passed the capacity,
    never a negative number. *)
Theorem seats_available_clamped (e : Event.t) (k : Z) (c : N) (d : DB) :
  Event.of_key k e ->
  Event.capacity e = Some c ->
  exists s : Z,
    s = quantity_sum k d
    /\ Event.tickets_sold {| Event.self := e; Event.db := d |}
       = (Return s, {| Event.self := e; Event.db := d |})
    /\ Event.seats_available {| Event.self := e; Event.db := d |}
       = (Return (Some (Z.max (Z.of_N c - s) 0)),
          {| Event.self := e; Event.db := d |})
    /\ 0 <= Z.max (Z.of_N c - s) 0
    /\ (s <= Z.of_N c -> Z.max (Z.of_N c - s) 0 = Z.of_N c - s)
    /\ (Z.of_N c <= s -> Z.max (Z.of_N c - s) 0 = 0).
Proof.
  intros [_ Hm] Hc. exists (quantity_sum k d).
  split; [reflexivity|]. split; [now apply tickets_sold_of_manager|].
  split; [now apply seats_available_of_manager|].
  repeat split; lia.
Qed.

Lemma seats_available_clamped_witness :
  quantity_sum 2 store_3_4 = 8
  /\ exists s : Z,
       s = quantity_sum 2 store_3_4
       /\ Event.tickets_sold
            {| Event.self := managed_event 2 (Some 5%N); Event.db := store_3_4 |}
          = (Return s,
             {| Event.self := managed_event 2 (Some 5%N); Event.db := store_3_4 |})
       /\ Event.seats_available
            {| Event.self := managed_event 2 (Some 5%N); Event.db := store_3_4 |}
          = (Return (Some (Z.max (5 - s) 0)),
             {| Event.self := managed_event 2 (Some 5%N); Event.db := store_3_4 |})
       /\ 0 <= Z.max (5 - s) 0
       /\ (s <= 5 -> Z.max (5 - s) 0 = 5 - s)
       /\ (5 <= s -> Z.max (5 - s) 0 = 0).
Proof.
  split; [reflexivity|].
  apply (seats_available_clamped (managed_event 2 (Some 5%N)) 2 5%N store_3_4
           (conj eq_refl eq_refl) eq_refl).
Defined.
